(** * glyphtile: the example server [server.py]

    A shallow embedding of [server.py] and the properties its
    specification states about it.

    [server.py] is glue around three library components
    ([http.server], [socketserver], [webbrowser]).  The code of the
    script is embedded as programs of a small effect monad whose
    primitive steps are the library calls the script performs; what the
    library answers is left to an arbitrary stateful environment, so
    every theorem holds whatever the library does.

    Layout: Part I holds every definition, Part II the lemmas. *)

From Stdlib Require Import ZArith List String Ascii Bool Lia DecimalString.
Import ListNotations.
Open Scope string_scope.
Open Scope list_scope.

(* ===================================================================== *)
(** * Part I.  Definitions                                                *)
(* ===================================================================== *)

(** ** Python strings *)

Module PyStr.

(** [s.endswith(suffix)]: the last [len(suffix)] characters of [s]
    are compared with [suffix]; a suffix longer than [s] never
    matches. *)
Definition endswith (s suffix : string) : bool :=
  let n := String.length s in
  let m := String.length suffix in
  (m <=? n)%nat && String.eqb (substring (n - m) m s) suffix.

(** [str(n)] for an [int], as an f-string field [{n}] formats it. *)
Definition str_of_int (n : Z) : string :=
  NilZero.string_of_int (Z.to_int n).

(** ASCII lower-casing of one character and of a string
    ([str.lower] on ASCII text); used to say what a case variant of
    an extension is. *)
Definition lower_ascii (c : ascii) : ascii :=
  let n := nat_of_ascii c in
  if ((65 <=? n) && (n <=? 90))%nat then ascii_of_nat (n + 32) else c.

Fixpoint lower (s : string) : string :=
  match s with
  | EmptyString => EmptyString
  | String c r => String (lower_ascii c) (lower r)
  end.

(** The line feed character, for ["\n"] inside a literal. *)
Definition LF : string := String (ascii_of_nat 10) EmptyString.
Definition CRLF : string := String (ascii_of_nat 13) LF.

End PyStr.

(** ** Python effects: exceptions, library calls, programs *)

Module Py.

(** The exceptions that matter to the script's control flow.
    [KeyboardInterrupt] and [SystemExit] derive from [BaseException]
    only; [OSError] is what a failed bind or [chdir] raises;
    [Exception name] stands for any other exception. *)
Inductive exn : Type :=
| KeyboardInterrupt
| SystemExit (code : Z)
| OSError (errno : Z)
| Exception (name : string).

Definition is_KeyboardInterrupt (e : exn) : bool :=
  match e with KeyboardInterrupt => true | _ => false end.

(** Values that cross the boundary with the library. *)
Inductive value : Type :=
| VNone
| VBool (b : bool)
| VStr (s : string)
| VServer.

(** The request handler class handed to [TCPServer]. *)
Inductive handler_class : Type :=
| cls_SimpleHTTPRequestHandler
| cls_CustomHTTPRequestHandler.

(** The library calls of [server.py] that may fail or block. *)
Inductive call : Type :=
| os_chdir (path : string)
| TCPServer (host : string) (port : Z) (handler : handler_class)
| webbrowser_open (url : string)
| serve_forever
| send_header (keyword val : string)
| super_end_headers
| super_guess_type (path : string).

(** What a call does: return a value, raise, or never come back. *)
Inductive reply : Type :=
| Returns (v : value)
| Raises (e : exn)
| Blocks.

(** Effects taken to succeed always: a line written by [print], and
    [server_close], which [TCPServer.__exit__] runs when the [with]
    block is left. *)
Inductive action : Type :=
| print (line : string)
| server_close.

Inductive event : Type :=
| Called (c : call) (r : reply)
| Did (a : action).

(** Programs: finite trees of library calls and actions.  The
    continuation of a call receives the value it returned ([inl]) or
    the exception it raised ([inr]). *)
Inductive prog (A : Type) : Type :=
| Ret (a : A)
| Raise (e : exn)
| Lib (c : call) (k : value + exn -> prog A)
| Do (a : action) (k : prog A).

Arguments Ret {A} a.
Arguments Raise {A} e.
Arguments Lib {A} c k.
Arguments Do {A} a k.

(** [try: p / except: h / else: k], the one combinator every other
    control structure is an instance of. *)
Fixpoint try_else {A B} (p : prog A) (h : exn -> prog B) (k : A -> prog B)
  : prog B :=
  match p with
  | Ret a => k a
  | Raise e => h e
  | Lib c q => Lib c (fun o => try_else (q o) h k)
  | Do a q => Do a (try_else q h k)
  end.

(** Sequencing: exceptions propagate. *)
Definition bind {A B} (p : prog A) (k : A -> prog B) : prog B :=
  try_else p Raise k.

(** [try: p / except: h] with a bare [except], which catches every
    exception, [BaseException] included. *)
Definition try_except {A} (p : prog A) (h : exn -> prog A) : prog A :=
  try_else p h Ret.

(** [try: p / except KeyboardInterrupt: h]. *)
Definition try_except_KeyboardInterrupt {A} (p : prog A) (h : prog A)
  : prog A :=
  try_else p (fun e => if is_KeyboardInterrupt e then h else Raise e) Ret.

(** A library call as a statement or expression. *)
Definition lib (c : call) : prog value :=
  Lib c (fun o => match o with inl v => Ret v | inr e => Raise e end).

Definition do (a : action) : prog value := Do a (Ret VNone).

(** [sys.exit(code)] raises [SystemExit]. *)
Definition sys_exit {A} (code : Z) : prog A := Raise (SystemExit code).

(** [with TCPServer((host, port), handler) as httpd: body].
    [__enter__] returns the server itself; [__exit__] calls
    [server_close()] and returns [None], so an exception of the body
    propagates after the socket is closed. *)
Definition with_TCPServer {A} (host : string) (port : Z)
           (handler : handler_class) (body : value -> prog A) : prog A :=
  bind (lib (TCPServer host port handler)) (fun httpd =>
    try_else (body httpd)
             (fun e => Do server_close (Raise e))
             (fun a => Do server_close (Ret a))).

(** How a run ends. *)
Inductive outcome (A : Type) : Type :=
| Done (a : A)
| Uncaught (e : exn)
| Blocked.

Arguments Done {A} a.
Arguments Uncaught {A} e.
Arguments Blocked {A}.

(** The environment: any state machine that answers library calls. *)
Definition library (S : Type) : Type := S -> call -> reply * S.

Record execution (S A : Type) : Type := Execution {
  trace : list event;
  result : outcome A;
  final : S
}.

Arguments Execution {S A} trace result final.
Arguments trace {S A} e.
Arguments result {S A} e.
Arguments final {S A} e.

Definition after {S A} (ev : event) (x : execution S A) : execution S A :=
  Execution (ev :: trace x) (result x) (final x).

Fixpoint run {S A} (env : library S) (p : prog A) (s : S) : execution S A :=
  match p with
  | Ret a => Execution [] (Done a) s
  | Raise e => Execution [] (Uncaught e) s
  | Do a k => after (Did a) (run env k s)
  | Lib c k =>
      let (r, s') := env s c in
      match r with
      | Returns v => after (Called c r) (run env (k (inl v)) s')
      | Raises e => after (Called c r) (run env (k (inr e)) s')
      | Blocks => Execution [Called c Blocks] Blocked s'
      end
  end.

(** One execution followed by another. *)
Definition seq_exec {S A B} (x : execution S A) (y : execution S B)
  : execution S B :=
  Execution (trace x ++ trace y) (result y) (final y).

(** The outcome of a program that is a single library call. *)
Definition reply_outcome (r : reply) : outcome value :=
  match r with
  | Returns v => Done v
  | Raises e => Uncaught e
  | Blocks => Blocked
  end.

(** Projections of a trace. *)
Definition calls (t : list event) : list call :=
  flat_map (fun ev => match ev with Called c _ => [c] | Did _ => [] end) t.

Definition stdout (t : list event) : list string :=
  flat_map (fun ev => match ev with Did (print l) => [l] | _ => [] end) t.

(** How the interpreter process ends when the script's top level runs
    [p]: a normal return exits with status 0, [SystemExit(c)] with
    status [c], an unhandled [KeyboardInterrupt] with 130 (the process
    dies of SIGINT), any other unhandled exception prints a traceback
    and exits with status 1; a blocked call leaves the process
    running. *)
Inductive termination : Type :=
| Exit (status : Z)
| Running.

Definition script_exit {A} (o : outcome A) : termination :=
  match o with
  | Done _ => Exit 0
  | Uncaught (SystemExit c) => Exit c
  | Uncaught KeyboardInterrupt => Exit 130
  | Uncaught _ => Exit 1
  | Blocked => Running
  end.

End Py.

Declare Scope py_scope.
Delimit Scope py_scope with py.
Notation "x <- p ;; q" := (Py.bind p (fun x => q))
  (at level 61, p at next level, right associativity) : py_scope.
Notation "p ;; q" := (Py.bind p (fun _ => q))
  (at level 61, right associativity) : py_scope.

(** ** The script *)

(** What the interpreter makes available to every function of the
    script without being passed: the command line, the environment
    variables and the module's [__file__]. *)
Record process : Type := Process {
  sys_argv : list string;
  os_environ : list (string * string);
  __file__ : string
}.

(** The request handler object ([self]) as the library has set it up
    when it calls one of the overridden methods: the parsed request
    line and the header lines buffered so far, the status line
    first. *)
Record handler : Type := Handler {
  command : string;
  path : string;
  request_version : string;
  _headers_buffer : list string
}.

Definition PORT : Z := 8000.

Module CustomHTTPRequestHandler.
Import Py.
Local Open Scope py_scope.

Definition end_headers (amb : process) (self : handler) : prog value :=
  (* Add CORS headers for local development *)
  lib (send_header "Access-Control-Allow-Origin" "*") ;;
  lib (send_header "Access-Control-Allow-Methods" "GET, POST, OPTIONS") ;;
  lib (send_header "Access-Control-Allow-Headers" "Content-Type") ;;
  lib super_end_headers.

Definition guess_type (amb : process) (self : handler) (path : string)
  : prog value :=
  (* Ensure proper MIME types for JavaScript modules *)
  if PyStr.endswith path ".js" then
    Ret (VStr "application/javascript")
  else
    lib (super_guess_type path).

End CustomHTTPRequestHandler.

Section Script.
Import Py.
Local Open Scope py_scope.

(** [os.path.abspath] and [os.path.dirname], library functions on
    path names. *)
Variables os_path_abspath os_path_dirname : string -> string.

Definition main (amb : process) : prog value :=
  (* Change to the directory containing this script *)
  lib (os_chdir (os_path_dirname (os_path_abspath (__file__ amb)))) ;;
  with_TCPServer "" PORT cls_CustomHTTPRequestHandler (fun httpd =>
    do (print "ScreenGrid Library Server") ;;
    do (print "=======================") ;;
    do (print ("Server running at http://localhost:" ++ PyStr.str_of_int PORT)) ;;
    do (print "") ;;
    do (print "Available examples:") ;;
    do (print ("  Main demo:     http://localhost:" ++ PyStr.str_of_int PORT ++ "/index.html")) ;;
    do (print ("  Simple test:   http://localhost:" ++ PyStr.str_of_int PORT ++ "/test.html")) ;;
    do (print ("  Basic example: http://localhost:" ++ PyStr.str_of_int PORT ++ "/example.js")) ;;
    do (print "") ;;
    do (print "Press Ctrl+C to stop the server") ;;
    do (print "") ;;
    (* Try to open browser automatically *)
    try_except
      (lib (webbrowser_open ("http://localhost:" ++ PyStr.str_of_int PORT ++ "/index.html")) ;;
       do (print "Opening browser..."))
      (fun _ => do (print "Could not open browser automatically")) ;;
    try_except_KeyboardInterrupt
      (lib serve_forever)
      (do (print (PyStr.LF ++ "Server stopped.")) ;;
       sys_exit 0)).

(** [if __name__ == "__main__": main()]: the process runs [main] and
    ends as the interpreter ends a script. *)
Definition script {S} (env : library S) (amb : process) (s : S)
  : execution S value * termination :=
  let x := run env (main amb) s in (x, script_exit (result x)).

End Script.

(** ** The library's header buffer

    [http.server.BaseHTTPRequestHandler] (CPython 3.11), the part the
    overridden [end_headers] talks to: [send_header] buffers a header
    line, [end_headers] appends the blank line and flushes the buffer
    to the socket.  An HTTP/0.9 response has no header section, and the
    library then drops every header.  This is library code; it serves
    as one concrete environment for the handler's programs. *)

Module BaseHTTPRequestHandler.
Import Py.

Record connection : Type := Connection {
  version : string;                 (* self.request_version *)
  buffer : option (list string);    (* self._headers_buffer, created on first use *)
  wfile : string;                   (* what has been written to the socket *)
  close_connection : bool
}.

Definition set_buffer (b : list string) (c : connection) : connection :=
  Connection (version c) (Some b) (wfile c) (close_connection c).

Definition set_close (b : bool) (c : connection) : connection :=
  Connection (version c) (buffer c) (wfile c) b.

Definition header_line (keyword val : string) : string :=
  keyword ++ ": " ++ val ++ PyStr.CRLF.

Definition send_header (keyword val : string) (c : connection) : connection :=
  let c1 :=
    if String.eqb (version c) "HTTP/0.9" then c
    else set_buffer (match buffer c with Some b => b | None => [] end
                     ++ [header_line keyword val]) c in
  if String.eqb (PyStr.lower keyword) "connection" then
    if String.eqb (PyStr.lower val) "close" then set_close true c1
    else if String.eqb (PyStr.lower val) "keep-alive" then set_close false c1
    else c1
  else c1.

Definition flush_headers (c : connection) : connection :=
  match buffer c with
  | Some b =>
      Connection (version c) (Some []) (wfile c ++ String.concat "" b)
                 (close_connection c)
  | None => c
  end.

Definition end_headers (c : connection) : exn + connection :=
  if String.eqb (version c) "HTTP/0.9" then inr c
  else match buffer c with
       | Some b => inr (flush_headers (set_buffer (b ++ [PyStr.CRLF]) c))
       | None => inl (Exception "AttributeError")
       end.

(** The handler's library calls answered by the methods above; the
    other calls are not methods of a handler. *)
Definition env : library connection := fun c op =>
  match op with
  | Py.send_header k v => (Returns VNone, send_header k v c)
  | Py.super_end_headers =>
      match end_headers c with
      | inr c' => (Returns VNone, c')
      | inl e => (Raises e, c)
      end
  | _ => (Raises (Exception "AttributeError"), c)
  end.

End BaseHTTPRequestHandler.

(** ** Vocabulary of the statements *)

(** The three CORS headers, in the order they are sent. *)
Definition cors_headers : list (string * string) :=
  [ ("Access-Control-Allow-Origin", "*");
    ("Access-Control-Allow-Methods", "GET, POST, OPTIONS");
    ("Access-Control-Allow-Headers", "Content-Type") ].

(** The status lines of a start, as they appear on the console. *)
Definition status_lines : list string :=
  [ "ScreenGrid Library Server";
    "=======================";
    "Server running at http://localhost:8000";
    "";
    "Available examples:";
    "  Main demo:     http://localhost:8000/index.html";
    "  Simple test:   http://localhost:8000/test.html";
    "  Basic example: http://localhost:8000/example.js";
    "";
    "Press Ctrl+C to stop the server";
    "" ].

Definition browser_url : string := "http://localhost:8000/index.html".
Definition opening_message : string := "Opening browser...".
Definition fallback_message : string := "Could not open browser automatically".
Definition stop_message : string := PyStr.LF ++ "Server stopped.".

(** The bind of the listener: every local interface (the empty host),
    port 8000, with the script's handler class. *)
Definition bind_call : Py.call :=
  Py.TCPServer "" 8000 Py.cls_CustomHTTPRequestHandler.


(** [path] ends with [suffix]. *)
Definition ends_with (path suffix : string) : Prop :=
  exists stem, path = (stem ++ suffix)%string.

(** [ext] is [".js"] in another capitalisation. *)
Definition case_variant_of_js (ext : string) : Prop :=
  PyStr.lower ext = ".js" /\ ext <> ".js".

(** Two processes that differ at most in their command line and their
    environment variables. *)
Definition same_but_argv_environ (p q : process) : Prop :=
  __file__ p = __file__ q.

(** ** Concrete environments *)

(** A library that answers the successive calls with the replies of a
    list, and blocks when the list is used up. *)
Definition scripted : Py.library (list Py.reply) := fun s _ =>
  match s with
  | r :: s' => (r, s')
  | [] => (Py.Blocks, [])
  end.

(** [posixpath.dirname]: everything up to the last slash, trailing
    slashes removed unless nothing else is left. *)
Module posixpath.

Definition is_sep (c : ascii) : bool := Ascii.eqb c "/"%char.

Fixpoint has_sep (p : string) : bool :=
  match p with
  | EmptyString => false
  | String c r => is_sep c || has_sep r
  end.

Fixpoint all_sep (p : string) : bool :=
  match p with
  | EmptyString => true
  | String c r => is_sep c && all_sep r
  end.

(** [p[:p.rfind('/') + 1]] *)
Fixpoint head (p : string) : string :=
  match p with
  | EmptyString => EmptyString
  | String c r => if has_sep p then String c (head r) else EmptyString
  end.

(** [s.rstrip('/')] *)
Fixpoint rstrip_sep (s : string) : string :=
  match s with
  | EmptyString => EmptyString
  | String c r =>
      match rstrip_sep r with
      | EmptyString => if is_sep c then EmptyString else String c EmptyString
      | r' => String c r'
      end
  end.

Definition dirname (p : string) : string :=
  let h := head p in
  if negb (String.eqb h "") && negb (all_sep h) then rstrip_sep h else h.

End posixpath.

Definition example_process : process :=
  Process [ "server.py"; "--port"; "9000" ] [ ("PORT", "9000") ]
          "/srv/glyphtile/examples/server.py".

Definition example_handler : handler :=
  Handler "GET" "/missing.html" "HTTP/1.1"
          [ ("HTTP/1.0 404 File not found" ++ PyStr.CRLF)%string ].

(** [os.path.abspath] on a path that is absolute and normalised
    already (as [__file__] of [example_process] is): the path
    itself. *)
Definition abspath_of_absolute (p : string) : string := p.

(** The three CORS headers as calls of [send_header]. *)
Definition cors_calls : list Py.call :=
  map (fun h => Py.send_header (fst h) (snd h)) cors_headers.

(** The events of a start up to the browser launch: the [chdir], the
    bind, the status lines. *)
Definition startup_prefix (dir : string) (v0 v1 : Py.value) : list Py.event :=
  Py.Called (Py.os_chdir dir) (Py.Returns v0)
  :: Py.Called bind_call (Py.Returns v1)
  :: map (fun l => Py.Did (Py.print l)) status_lines.

(** Library behaviours for [scripted]: the replies to [os.chdir], to
    [TCPServer(...)], to [webbrowser.open] and to [serve_forever], in
    that order. *)
Definition serving : list Py.reply :=
  [ Py.Returns Py.VNone; Py.Returns Py.VServer; Py.Returns (Py.VBool true) ].

Definition interrupted : list Py.reply :=
  serving ++ [ Py.Raises Py.KeyboardInterrupt ].

Definition port_in_use : list Py.reply :=
  [ Py.Returns Py.VNone; Py.Raises (Py.OSError 98) ].


Definition interrupted_in_browser_launch : list Py.reply :=
  [ Py.Returns Py.VNone; Py.Returns Py.VServer;
    Py.Raises Py.KeyboardInterrupt ].

(** The connection of [example_handler] before [end_headers] runs. *)
Definition example_connection : BaseHTTPRequestHandler.connection :=
  BaseHTTPRequestHandler.Connection
    (request_version example_handler)
    (Some (_headers_buffer example_handler)) "" false.

(** A process started with another command line and environment. *)
Definition other_process : process :=
  Process [ "server.py" ] [ ("BROWSER", "lynx"); ("HOME", "/root") ]
          "/srv/glyphtile/examples/server.py".

(** A run of [main] for [example_process] against [scripted]. *)
Definition example_run (replies : list Py.reply)
  : Py.execution (list Py.reply) Py.value :=
  Py.run scripted (main abspath_of_absolute posixpath.dirname example_process)
         replies.


(** More library behaviours for [scripted]. *)
Definition chdir_fails : list Py.reply :=
  [ Py.Raises (Py.OSError 2) ].

Definition interrupted_while_binding : list Py.reply :=
  [ Py.Returns Py.VNone; Py.Raises Py.KeyboardInterrupt ].

Definition browser_reports_failure : list Py.reply :=
  [ Py.Returns Py.VNone; Py.Returns Py.VServer; Py.Returns (Py.VBool false) ].

Definition serve_loop_crashes : list Py.reply :=
  serving ++ [ Py.Raises (Py.OSError 9) ].

Definition serve_loop_returns : list Py.reply :=
  serving ++ [ Py.Returns Py.VNone ].

Definition second_header_fails : list Py.reply :=
  [ Py.Returns Py.VNone; Py.Raises (Py.Exception "UnicodeEncodeError") ].

(** ** Proof automation *)

(** Case analysis on what the library answers to the next call. *)
Ltac next_reply :=
  match goal with
  | |- context [let (_, _) := ?env ?s ?c in _] =>
      destruct (env s c) as [[?v|?e|] ?s]; simpl
  end.

(** Every run of [main], one goal per way the library can answer. *)
Ltac all_runs :=
  unfold script, main, Py.with_TCPServer; simpl; repeat next_reply;
  repeat match goal with
         | |- context [Py.is_KeyboardInterrupt ?e] => destruct e; simpl
         end.

(** Membership of an event in a trace that is known: one case per
    position where the event can be. *)
Ltac find_event H :=
  simpl in H;
  repeat (destruct H as [H|H]; [try discriminate H|]);
  try contradiction H.

(** The position of an element in a list that is known. *)
Ltac here := simpl; repeat (first [left; reflexivity | right]).

(* ===================================================================== *)
(** * Part II.  Lemmas                                                    *)
(* ===================================================================== *)

(** ** Strings *)

Section StringFacts.
Local Open Scope string_scope.

Lemma length_app (s t : string) :
  String.length (s ++ t) = String.length s + String.length t.
Proof. induction s as [|c s IH]; simpl; [reflexivity | now rewrite IH]. Qed.

Lemma string_app_assoc (a b c : string) : (a ++ b) ++ c = a ++ b ++ c.
Proof. induction a as [|x a IH]; simpl; [reflexivity | now rewrite IH]. Qed.

Lemma substring_all (s : string) : substring 0 (String.length s) s = s.
Proof. induction s as [|c s IH]; simpl; [reflexivity | now rewrite IH]. Qed.

Lemma substring_skip (stem t : string) :
  substring (String.length stem) (String.length t) (stem ++ t) = t.
Proof.
  induction stem as [|c stem IH]; simpl; [apply substring_all | exact IH].
Qed.

(** A string is its first [n] characters followed by the rest. *)
Lemma substring_split (s : string) : forall n,
  n <= String.length s ->
  s = substring 0 n s ++ substring n (String.length s - n) s.
Proof.
  induction s as [|c s IH]; intros [|n] Hn; simpl in *.
  - reflexivity.
  - lia.
  - now rewrite substring_all.
  - f_equal. apply IH. lia.
Qed.

(** Tails of equal length of one string are equal. *)
Lemma app_tail_inj (s1 : string) : forall s2 t1 t2,
  s1 ++ t1 = s2 ++ t2 -> String.length t1 = String.length t2 -> t1 = t2.
Proof.
  induction s1 as [|c s1 IH]; intros [|d s2] t1 t2 E L; simpl in *.
  - exact E.
  - exfalso. apply (f_equal String.length) in E. simpl in E.
    rewrite length_app in E. lia.
  - exfalso. apply (f_equal String.length) in E. simpl in E.
    rewrite length_app in E. lia.
  - injection E as _ E. eauto.
Qed.

Lemma lower_length (s : string) :
  String.length (PyStr.lower s) = String.length s.
Proof. induction s as [|c s IH]; simpl; [reflexivity | now rewrite IH]. Qed.

(** [str.endswith] decides [ends_with]. *)
Lemma endswith_iff (s suffix : string) :
  PyStr.endswith s suffix = true <-> ends_with s suffix.
Proof.
  unfold PyStr.endswith, ends_with. cbv zeta. split.
  - intros H. apply andb_true_iff in H as [Hle Heq].
    apply Nat.leb_le in Hle. apply String.eqb_eq in Heq.
    exists (substring 0 (String.length s - String.length suffix) s).
    assert (Hs := substring_split s _ (Nat.le_sub_l _ (String.length suffix))).
    replace (String.length s - (String.length s - String.length suffix))
      with (String.length suffix) in Hs by lia.
    now rewrite Heq in Hs.
  - intros [stem ->]. rewrite length_app. apply andb_true_iff. split.
    + apply Nat.leb_le. lia.
    + replace (String.length stem + String.length suffix - String.length suffix)
        with (String.length stem) by lia.
      rewrite substring_skip. apply String.eqb_refl.
Qed.

Lemma endswith_false_iff (s suffix : string) :
  PyStr.endswith s suffix = false <-> ~ ends_with s suffix.
Proof.
  rewrite <- endswith_iff. destruct (PyStr.endswith s suffix); split; congruence.
Qed.

(** A path that ends with an extension as long as [suffix] ends with
    [suffix] only if the extension is [suffix]. *)
Lemma ends_with_same_length (p ext suffix : string) :
  ends_with p ext -> String.length ext = String.length suffix ->
  ends_with p suffix -> ext = suffix.
Proof.
  intros [s1 ->] L [s2 E]. exact (app_tail_inj _ _ _ _ E L).
Qed.

Lemma case_variant_not_js (p ext : string) :
  ends_with p ext -> case_variant_of_js ext -> ~ ends_with p ".js".
Proof.
  intros Hp [Hl Hne] Hjs. apply Hne.
  apply (ends_with_same_length p); trivial.
  rewrite <- (lower_length ext), Hl. reflexivity.
Qed.

Lemma mjs_not_js (p : string) : ends_with p ".mjs" -> ~ ends_with p ".js".
Proof.
  intros [stem ->] Hjs.
  assert (E : "mjs" = ".js").
  { apply (ends_with_same_length (stem ++ ".mjs")); trivial.
    exists (stem ++ "."). now rewrite string_app_assoc. }
  discriminate E.
Qed.

(** Joining with the empty separator a buffer extended by one line. *)
Lemma join_snoc (b : list string) (x : string) :
  String.concat "" (b ++ [x])%list = String.concat "" b ++ x.
Proof.
  induction b as [|y b IH]; [reflexivity|].
  change ((y :: b) ++ [x])%list with (y :: (b ++ [x]))%list.
  destruct b as [|z b].
  - simpl. reflexivity.
  - change (String.concat "" (y :: (z :: b) ++ [x])%list)
      with (y ++ "" ++ String.concat "" ((z :: b) ++ [x])%list).
    rewrite IH. simpl. now rewrite string_app_assoc.
Qed.

End StringFacts.

(** The f-strings of [main] that mention [PORT], as printed. *)
Lemma port_formatting :
  PyStr.str_of_int PORT = "8000"%string
  /\ ("http://localhost:" ++ PyStr.str_of_int PORT ++ "/index.html")%string
     = browser_url.
Proof. split; reflexivity. Qed.

(** [posixpath.dirname] on the example script. *)
Lemma dirname_example :
  posixpath.dirname (__file__ example_process)
  = "/srv/glyphtile/examples"%string.
Proof. reflexivity. Qed.

(** ** The effect monad *)

Section Effects.
Import Py.
Context {S : Type} (env : library S).

(** A run of [try: p / except: h / else: k] is a run of [p] followed by
    a run of the branch that the outcome of [p] selects. *)
Lemma run_try_else {A B} (p : prog A) (h : exn -> prog B) (k : A -> prog B)
      (s : S) :
  run env (try_else p h k) s =
  let x := run env p s in
  match result x with
  | Done a => seq_exec x (run env (k a) (final x))
  | Uncaught e => seq_exec x (run env (h e) (final x))
  | Blocked => Execution (trace x) Blocked (final x)
  end.
Proof.
  revert s. induction p as [a|e|c q IH|a q IH]; intros s; simpl.
  - now destruct (run env (k a) s).
  - now destruct (run env (h e) s).
  - destruct (env s c) as [[v|e|] s']; simpl; [| |reflexivity].
    + rewrite IH. cbv zeta. now destruct (result (run env (q (inl v)) s')).
    + rewrite IH. cbv zeta. now destruct (result (run env (q (inr e)) s')).
  - rewrite IH. cbv zeta. now destruct (result (run env q s)).
Qed.

(** A bare [except] lets no exception through. *)
Lemma try_except_catches_all {A} (p : prog A) (h : exn -> prog A) (s : S) :
  (forall e s', exists a, result (run env (h e) s') = Done a) ->
  forall e, result (run env (try_except p h) s) <> Uncaught e.
Proof.
  intros Hh e. unfold try_except. rewrite run_try_else. cbv zeta.
  destruct (result (run env p s)) as [a|e'|]; simpl; try discriminate.
  destruct (Hh e' (final (run env p s))) as [a ->]. discriminate.
Qed.

(** A single library call: one event, the reply decides the outcome. *)
Lemma run_lib (c : call) (s : S) :
  run env (lib c) s =
  Execution [Called c (fst (env s c))] (reply_outcome (fst (env s c)))
            (snd (env s c)).
Proof. simpl. now destruct (env s c) as [[v|e|] s']. Qed.

End Effects.

(** ** The request handler *)

Section Handler.
Import Py CustomHTTPRequestHandler.
Context {S : Type} (env : library S).
Variables (amb : process) (self : handler).

(** Whatever the library answers, the calls of [end_headers] are an
    initial part of: the three CORS headers, then the delegation. *)
Lemma end_headers_call_order (s : S) :
  exists n, 1 <= n /\
    calls (trace (run env (end_headers amb self) s))
    = firstn n (cors_calls ++ [super_end_headers]).
Proof.
  unfold end_headers. simpl.
  destruct (env s _) as [[v1|e1|] s1]; simpl;
    [| exists 1; split; [lia|reflexivity] ..].
  destruct (env s1 _) as [[v2|e2|] s2]; simpl;
    [| exists 2; split; [lia|reflexivity] ..].
  destruct (env s2 _) as [[v3|e3|] s3]; simpl;
    [| exists 3; split; [lia|reflexivity] ..].
  destruct (env s3 _) as [[v4|e4|] s4]; simpl;
    exists 4; split; solve [lia|reflexivity].
Qed.

(** C1.  For every handler object (whatever the request, the status
    line and the headers already buffered) and every state of the
    library in which [send_header] returns: [end_headers] makes
    exactly four library calls, namely [send_header] with
    [Access-Control-Allow-Origin: *], with
    [Access-Control-Allow-Methods: GET, POST, OPTIONS] and with
    [Access-Control-Allow-Headers: Content-Type], in this order, and
    then, once, the library's own [end_headers]; nothing else
    happens. *)
Theorem end_headers_appends_cors_headers (s : S) :
  (forall s0 k v, exists w s1, env s0 (send_header k v) = (Returns w, s1)) ->
  exists w1 w2 w3 r,
    trace (run env (end_headers amb self) s)
    = [ Called (send_header "Access-Control-Allow-Origin" "*") (Returns w1);
        Called (send_header "Access-Control-Allow-Methods" "GET, POST, OPTIONS")
               (Returns w2);
        Called (send_header "Access-Control-Allow-Headers" "Content-Type")
               (Returns w3);
        Called super_end_headers r ].
Proof.
  intros Hsend. unfold end_headers. simpl.
  destruct (Hsend s "Access-Control-Allow-Origin" "*")%string
    as (w1 & s1 & ->). simpl.
  destruct (Hsend s1 "Access-Control-Allow-Methods" "GET, POST, OPTIONS")%string
    as (w2 & s2 & ->). simpl.
  destruct (Hsend s2 "Access-Control-Allow-Headers" "Content-Type")%string
    as (w3 & s3 & ->). simpl.
  exists w1, w2, w3, (fst (env s3 super_end_headers)).
  now destruct (env s3 super_end_headers) as [[v|e|] s4].
Qed.

(** C2.  For every path: if it ends with [.js], [guess_type] returns
    ['application/javascript'] without consulting the library;
    otherwise it makes the one call [super().guess_type(path)] and its
    outcome is the outcome of that call. *)
Theorem guess_type_resolution (path : string) (s : S) :
  (ends_with path ".js" ->
     run env (guess_type amb self path) s
     = Execution [] (Done (VStr "application/javascript")) s)
  /\
  (~ ends_with path ".js" ->
     run env (guess_type amb self path) s
     = Execution
         [Called (super_guess_type path) (fst (env s (super_guess_type path)))]
         (reply_outcome (fst (env s (super_guess_type path))))
         (snd (env s (super_guess_type path)))).
Proof.
  unfold guess_type. split; intros H.
  - apply endswith_iff in H. now rewrite H.
  - apply endswith_false_iff in H. rewrite H. apply run_lib.
Qed.

(** C9.  For every path that ends with [.js] in another capitalisation
    ([.JS], [.Js], [.jS]) or with [.mjs]: [guess_type] is the
    delegation to the library's lookup, not the return of the fixed
    string; its run is the one library call, and its outcome the
    outcome of that call. *)
Theorem guess_type_override_only_for_exact_js (path ext : string) (s : S) :
  ends_with path ext ->
  case_variant_of_js ext \/ ext = ".mjs"%string ->
  guess_type amb self path = lib (super_guess_type path)
  /\ guess_type amb self path <> Ret (VStr "application/javascript")
  /\ run env (guess_type amb self path) s
     = Execution
         [Called (super_guess_type path) (fst (env s (super_guess_type path)))]
         (reply_outcome (fst (env s (super_guess_type path))))
         (snd (env s (super_guess_type path))).
Proof.
  intros Hp Hext.
  assert (Hno : PyStr.endswith path ".js" = false).
  { apply endswith_false_iff. destruct Hext as [Hv| ->].
    - exact (case_variant_not_js _ _ Hp Hv).
    - exact (mjs_not_js _ Hp). }
  unfold guess_type. rewrite Hno. repeat split.
  - discriminate.
  - apply run_lib.
Qed.

End Handler.

(** C1 on the library's header buffer, for a 404 response. *)
Lemma end_headers_appends_cors_headers_witness :
  (forall c k v, exists w c',
      BaseHTTPRequestHandler.env c (Py.send_header k v) = (Py.Returns w, c'))
  /\ exists w1 w2 w3 r,
      Py.trace (Py.run BaseHTTPRequestHandler.env
                  (CustomHTTPRequestHandler.end_headers example_process
                                                        example_handler)
                  example_connection)
      = [ Py.Called (Py.send_header "Access-Control-Allow-Origin" "*")
                    (Py.Returns w1);
          Py.Called (Py.send_header "Access-Control-Allow-Methods"
                                    "GET, POST, OPTIONS") (Py.Returns w2);
          Py.Called (Py.send_header "Access-Control-Allow-Headers"
                                    "Content-Type") (Py.Returns w3);
          Py.Called Py.super_end_headers r ].
Proof.
  assert (H : forall c k v, exists w c',
      BaseHTTPRequestHandler.env c (Py.send_header k v) = (Py.Returns w, c')).
  { intros c k v. exists Py.VNone, (BaseHTTPRequestHandler.send_header k v c).
    reflexivity. }
  split; [exact H|].
  exact (end_headers_appends_cors_headers BaseHTTPRequestHandler.env
           example_process example_handler example_connection H).
Defined.

(** On the library's header buffer, for a request that is not
    HTTP/0.9: [end_headers] writes what was buffered, then the three
    CORS header lines, then the blank line, and empties the buffer. *)
Lemma end_headers_on_the_wire (amb : process) (self : handler)
      (c : BaseHTTPRequestHandler.connection) :
  BaseHTTPRequestHandler.version c <> "HTTP/0.9"%string ->
  let x := Py.run BaseHTTPRequestHandler.env
                  (CustomHTTPRequestHandler.end_headers amb self) c in
  Py.result x = Py.Done Py.VNone /\
  BaseHTTPRequestHandler.buffer (Py.final x) = Some [] /\
  BaseHTTPRequestHandler.wfile (Py.final x)
  = (BaseHTTPRequestHandler.wfile c
     ++ String.concat "" (match BaseHTTPRequestHandler.buffer c with
                          | Some b => b
                          | None => []
                          end)
     ++ "Access-Control-Allow-Origin: *" ++ PyStr.CRLF
     ++ "Access-Control-Allow-Methods: GET, POST, OPTIONS" ++ PyStr.CRLF
     ++ "Access-Control-Allow-Headers: Content-Type" ++ PyStr.CRLF
     ++ PyStr.CRLF)%string.
Proof.
  intros Hv. apply String.eqb_neq in Hv.
  destruct c as [ver buf w cl]. simpl in Hv.
  unfold CustomHTTPRequestHandler.end_headers. simpl.
  unfold BaseHTTPRequestHandler.send_header, BaseHTTPRequestHandler.end_headers.
  simpl. rewrite Hv. simpl. rewrite Hv. simpl. rewrite Hv. simpl. rewrite Hv.
  simpl. repeat split. f_equal.
  rewrite !join_snoc, !string_app_assoc. reflexivity.
Qed.

(** An HTTP/0.9 response has no header section: the library drops the
    three headers as it drops every header. *)
Lemma end_headers_http09 (amb : process) (self : handler)
      (c : BaseHTTPRequestHandler.connection) :
  BaseHTTPRequestHandler.version c = "HTTP/0.9"%string ->
  Py.final (Py.run BaseHTTPRequestHandler.env
              (CustomHTTPRequestHandler.end_headers amb self) c) = c.
Proof.
  intros Hv. destruct c as [ver buf w cl]. simpl in Hv. subst ver.
  reflexivity.
Qed.

(** C2 at [example.js], which the library would have typed otherwise,
    and at [index.html]. *)
Lemma guess_type_resolution_witness :
  (ends_with "example.js" ".js"
   /\ Py.run scripted
        (CustomHTTPRequestHandler.guess_type example_process example_handler
                                             "example.js")
        [Py.Returns (Py.VStr "text/plain")]
      = Py.Execution [] (Py.Done (Py.VStr "application/javascript"))
                     [Py.Returns (Py.VStr "text/plain")])
  /\
  (~ ends_with "index.html" ".js"
   /\ Py.run scripted
        (CustomHTTPRequestHandler.guess_type example_process example_handler
                                             "index.html")
        [Py.Returns (Py.VStr "text/html")]
      = Py.Execution
          [Py.Called (Py.super_guess_type "index.html")
                     (Py.Returns (Py.VStr "text/html"))]
          (Py.Done (Py.VStr "text/html")) []).
Proof.
  assert (Hjs : ends_with "example.js" ".js") by (now exists "example"%string).
  assert (Hhtml : ~ ends_with "index.html" ".js")
    by (now apply endswith_false_iff).
  split; (split; [assumption|]).
  - exact (proj1 (guess_type_resolution scripted example_process
                    example_handler "example.js" _) Hjs).
  - exact (proj2 (guess_type_resolution scripted example_process
                    example_handler "index.html"
                    [Py.Returns (Py.VStr "text/html")]) Hhtml).
Defined.

(** C9 at [ScreenGrid.JS] and at [screengrid.mjs]. *)
Lemma guess_type_override_only_for_exact_js_witness :
  (ends_with "ScreenGrid.JS" ".JS" /\ case_variant_of_js ".JS"
   /\ Py.run scripted
        (CustomHTTPRequestHandler.guess_type example_process example_handler
                                             "ScreenGrid.JS")
        [Py.Returns (Py.VStr "application/octet-stream")]
      = Py.Execution
          [Py.Called (Py.super_guess_type "ScreenGrid.JS")
                     (Py.Returns (Py.VStr "application/octet-stream"))]
          (Py.Done (Py.VStr "application/octet-stream")) [])
  /\
  (ends_with "screengrid.mjs" ".mjs"
   /\ CustomHTTPRequestHandler.guess_type example_process example_handler
                                          "screengrid.mjs"
      = Py.lib (Py.super_guess_type "screengrid.mjs")).
Proof.
  assert (H1 : ends_with "ScreenGrid.JS" ".JS") by (now exists "ScreenGrid"%string).
  assert (H2 : case_variant_of_js ".JS") by (split; [reflexivity|discriminate]).
  assert (H3 : ends_with "screengrid.mjs" ".mjs")
    by (now exists "screengrid"%string).
  split.
  - split; [exact H1|]. split; [exact H2|].
    exact (proj2 (proj2 (guess_type_override_only_for_exact_js scripted
             example_process example_handler "ScreenGrid.JS" ".JS"
             [Py.Returns (Py.VStr "application/octet-stream")]
             H1 (or_introl H2)))).
  - split; [exact H3|].
    exact (proj1 (guess_type_override_only_for_exact_js scripted
             example_process example_handler "screengrid.mjs" ".mjs" []
             H3 (or_intror eq_refl))).
Defined.

(** ** Startup and shutdown *)

Section Startup.
Import Py.
Variables os_path_abspath os_path_dirname : string -> string.
Context {S : Type} (env : library S).
Variable amb : process.

(** The directory of the script, and a run of [main] from a state of
    the library. *)
Local Abbreviation dir := (os_path_dirname (os_path_abspath (__file__ amb))).
Local Abbreviation start s :=
  (run env (main os_path_abspath os_path_dirname amb) s).

(** C3.  In every run in which [serve_forever] is left by a
    [KeyboardInterrupt]: the next and last events are the print of the
    stop message and the closing of the server socket, and the process
    exits with status 0. *)
Theorem interrupt_in_serve_loop_exits_0 (s : S) :
  In (Called serve_forever (Raises KeyboardInterrupt)) (trace (start s)) ->
  (exists v0 v1 r m,
     trace (start s)
     = startup_prefix dir v0 v1
       ++ [ Called (webbrowser_open browser_url) r;
            Did (print m);
            Called serve_forever (Raises KeyboardInterrupt);
            Did (print stop_message);
            Did server_close ])
  /\ result (start s) = Uncaught (SystemExit 0)
  /\ snd (script os_path_abspath os_path_dirname env amb s) = Exit 0.
Proof.
  all_runs; intros H; find_event H;
    try (inversion H; fail);
    (split; [repeat eexists | split; reflexivity]).
Qed.

(** A browser launch that raises, whatever it raises: the fallback
    message is printed next and [serve_forever] is called next. *)
Lemma browser_raise_is_caught (s : S) (e : exn) :
  In (Called (webbrowser_open browser_url) (Raises e)) (trace (start s)) ->
  exists v0 v1 r rest,
    trace (start s)
    = startup_prefix dir v0 v1
      ++ [ Called (webbrowser_open browser_url) (Raises e);
           Did (print fallback_message);
           Called serve_forever r ]
      ++ rest.
Proof.
  all_runs; intros H; find_event H; injection H as <-; repeat eexists.
Qed.


(** C10.  In every run in which [KeyboardInterrupt] is raised inside
    the call of [webbrowser.open]: the interrupt does not end the run;
    ['Could not open browser automatically'] is printed next and
    [serve_forever] is called next. *)
Theorem interrupt_during_browser_launch_is_caught (s : S) :
  In (Called (webbrowser_open browser_url) (Raises KeyboardInterrupt))
     (trace (start s)) ->
  (exists v0 v1 r rest,
     trace (start s)
     = startup_prefix dir v0 v1
       ++ [ Called (webbrowser_open browser_url) (Raises KeyboardInterrupt);
            Did (print "Could not open browser automatically");
            Called serve_forever r ]
       ++ rest)
  /\ In serve_forever (calls (trace (start s))).
Proof.
  intros H.
  destruct (browser_raise_is_caught s _ H) as (v0 & v1 & r & rest & E).
  split; [now exists v0, v1, r, rest|].
  rewrite E. unfold calls. rewrite !flat_map_app.
  apply in_or_app. right. apply in_or_app. left. here.
Qed.

(** The value [webbrowser.open] returns is not looked at: whatever it
    is, [False] included, the opening message is printed, and
    [serve_forever] is called next. *)
Lemma browser_return_value_is_ignored (s : S) (v : value) :
  In (Called (webbrowser_open browser_url) (Returns v)) (trace (start s)) ->
  exists v0 v1 r rest,
    trace (start s)
    = startup_prefix dir v0 v1
      ++ [ Called (webbrowser_open browser_url) (Returns v);
           Did (print opening_message);
           Called serve_forever r ]
      ++ rest.
Proof.
  all_runs; intros H; find_event H; injection H as <-; repeat eexists.
Qed.

(** C5.  In every run in which the bind raises [OSError] (the port is
    in use): the run is the successful [chdir] and the failed bind and
    nothing else; the [OSError] is unhandled and the process exits with
    status 1; nothing is printed, no bind has succeeded, the browser
    is not launched, [serve_forever] is not called. *)
Theorem bind_failure_aborts_startup (s : S) (errno : Z) :
  In (Called bind_call (Raises (OSError errno))) (trace (start s)) ->
  (exists v0,
     trace (start s)
     = [ Called (os_chdir dir) (Returns v0);
         Called bind_call (Raises (OSError errno)) ])
  /\ result (start s) = Uncaught (OSError errno)
  /\ snd (script os_path_abspath os_path_dirname env amb s) = Exit 1
  /\ stdout (trace (start s)) = []
  /\ (forall v, ~ In (Called bind_call (Returns v)) (trace (start s)))
  /\ (forall url, ~ In (webbrowser_open url) (calls (trace (start s))))
  /\ ~ In serve_forever (calls (trace (start s))).
Proof.
  all_runs; intros H; find_event H; injection H as ->;
    (split; [eexists; reflexivity|]); repeat split;
    try intros ?; cbn; intuition discriminate.
Qed.


(** C7.  In every run in which the bind has succeeded: the events
    after the bind are the eleven status lines, in order, and then the
    call of [webbrowser.open] with [http://localhost:8000/index.html];
    [serve_forever] is not called before. *)
Theorem status_lines_then_browser (s : S) (v : value) :
  In (Called bind_call (Returns v)) (trace (start s)) ->
  exists v0 r rest,
    trace (start s)
    = startup_prefix dir v0 v
      ++ [ Called (webbrowser_open "http://localhost:8000/index.html") r ]
      ++ rest
    /\ stdout (startup_prefix dir v0 v) = status_lines
    /\ ~ In serve_forever (calls (startup_prefix dir v0 v)).
Proof.
  all_runs; intros H; find_event H; injection H as <-;
    do 3 eexists; (split; [reflexivity|]);
    (split; [reflexivity|]); cbn; intuition discriminate.
Qed.

End Startup.

(** C8.  Two processes that differ only in their command line and
    their environment variables, run against the same library, behave
    alike: [main] gives the same events (the same [chdir], the same
    bind of port 8000), the same outcome and the same exit status, and
    so do [end_headers] and [guess_type]. *)
Theorem argv_and_environ_are_not_read
        (os_path_abspath os_path_dirname : string -> string) (p q : process) :
  same_but_argv_environ p q ->
  forall (S : Type) (env : Py.library S) (s : S) (self : handler)
         (path : string),
    script os_path_abspath os_path_dirname env p s
    = script os_path_abspath os_path_dirname env q s
    /\ Py.run env (CustomHTTPRequestHandler.end_headers p self) s
       = Py.run env (CustomHTTPRequestHandler.end_headers q self) s
    /\ Py.run env (CustomHTTPRequestHandler.guess_type p self path) s
       = Py.run env (CustomHTTPRequestHandler.guess_type q self path) s.
Proof.
  unfold same_but_argv_environ. intros E S env s self path.
  unfold script, main. rewrite E. repeat split.
Qed.

(** ** The theorems at concrete runs *)

(** C3: Ctrl-C while serving. *)
Lemma interrupt_in_serve_loop_exits_0_witness :
  In (Py.Called Py.serve_forever (Py.Raises Py.KeyboardInterrupt))
     (Py.trace (example_run interrupted))
  /\ Py.result (example_run interrupted) = Py.Uncaught (Py.SystemExit 0)
  /\ snd (script abspath_of_absolute posixpath.dirname scripted
                 example_process interrupted) = Py.Exit 0.
Proof.
  assert (H : In (Py.Called Py.serve_forever (Py.Raises Py.KeyboardInterrupt))
                 (Py.trace (example_run interrupted))) by (cbv; tauto).
  split; [exact H|].
  exact (proj2 (interrupt_in_serve_loop_exits_0 abspath_of_absolute
                  posixpath.dirname scripted example_process interrupted H)).
Defined.



(** C10: Ctrl-C while the browser is being launched. *)
Lemma interrupt_during_browser_launch_is_caught_witness :
  In (Py.Called (Py.webbrowser_open browser_url)
                (Py.Raises Py.KeyboardInterrupt))
     (Py.trace (example_run interrupted_in_browser_launch))
  /\ In Py.serve_forever
        (Py.calls (Py.trace (example_run interrupted_in_browser_launch))).
Proof.
  assert (H : In (Py.Called (Py.webbrowser_open browser_url)
                            (Py.Raises Py.KeyboardInterrupt))
                 (Py.trace (example_run interrupted_in_browser_launch)))
    by (cbv; tauto).
  split; [exact H|].
  exact (proj2 (interrupt_during_browser_launch_is_caught abspath_of_absolute
                  posixpath.dirname scripted example_process
                  interrupted_in_browser_launch H)).
Defined.

(** C5: port 8000 is taken (errno 98, EADDRINUSE). *)
Lemma bind_failure_aborts_startup_witness :
  In (Py.Called bind_call (Py.Raises (Py.OSError 98)))
     (Py.trace (example_run port_in_use))
  /\ Py.result (example_run port_in_use) = Py.Uncaught (Py.OSError 98)
  /\ snd (script abspath_of_absolute posixpath.dirname scripted
                 example_process port_in_use) = Py.Exit 1
  /\ Py.stdout (Py.trace (example_run port_in_use)) = [].
Proof.
  assert (H : In (Py.Called bind_call (Py.Raises (Py.OSError 98)))
                 (Py.trace (example_run port_in_use))) by (cbv; tauto).
  split; [exact H|].
  destruct (bind_failure_aborts_startup abspath_of_absolute posixpath.dirname
              scripted example_process port_in_use 98 H)
    as (_ & Hr & Hx & Ho & _).
  exact (conj Hr (conj Hx Ho)).
Defined.


(** C7: the console of a start. *)
Lemma status_lines_then_browser_witness :
  In (Py.Called bind_call (Py.Returns Py.VServer))
     (Py.trace (example_run serving))
  /\ exists v0 r rest,
       Py.trace (example_run serving)
       = startup_prefix "/srv/glyphtile/examples" v0 Py.VServer
         ++ [ Py.Called (Py.webbrowser_open "http://localhost:8000/index.html")
                        r ]
         ++ rest
       /\ Py.stdout (startup_prefix "/srv/glyphtile/examples" v0 Py.VServer)
          = status_lines
       /\ ~ In Py.serve_forever
              (Py.calls (startup_prefix "/srv/glyphtile/examples" v0
                                        Py.VServer)).
Proof.
  assert (H : In (Py.Called bind_call (Py.Returns Py.VServer))
                 (Py.trace (example_run serving))) by (cbv; tauto).
  split; [exact H|].
  exact (status_lines_then_browser abspath_of_absolute posixpath.dirname
           scripted example_process serving Py.VServer H).
Defined.

(** C8: the same start with another command line and environment. *)
Lemma argv_and_environ_are_not_read_witness :
  same_but_argv_environ example_process other_process
  /\ sys_argv example_process <> sys_argv other_process
  /\ os_environ example_process <> os_environ other_process
  /\ script abspath_of_absolute posixpath.dirname scripted example_process
            interrupted
     = script abspath_of_absolute posixpath.dirname scripted other_process
              interrupted.
Proof.
  assert (H : same_but_argv_environ example_process other_process)
    by reflexivity.
  split; [exact H|]. split; [discriminate|]. split; [discriminate|].
  exact (proj1 (argv_and_environ_are_not_read abspath_of_absolute
                  posixpath.dirname example_process other_process H
                  (list Py.reply) scripted interrupted example_handler
                  "example.js")).
Defined.

(* ===================================================================== *)
(** * Part III.  Further behaviour of the script                          *)
(* ===================================================================== *)

Section StartupFailures.
Import Py.
Variables os_path_abspath os_path_dirname : string -> string.
Context {S : Type} (env : library S).
Variable amb : process.

Local Abbreviation dir := (os_path_dirname (os_path_abspath (__file__ amb))).
Local Abbreviation start s :=
  (run env (main os_path_abspath os_path_dirname amb) s).

(** X1.  [main] guards neither [os.chdir] nor the construction of the
    server: an exception raised by either, whatever it is
    ([KeyboardInterrupt] included), ends the run at that call and is
    unhandled; nothing has been printed and no socket is closed. *)
Theorem startup_exceptions_are_unhandled (s : S) (c : call) (e : exn) :
  c = os_chdir dir \/ c = bind_call ->
  In (Called c (Raises e)) (trace (start s)) ->
  (exists pre, trace (start s) = pre ++ [Called c (Raises e)])
  /\ result (start s) = Uncaught e
  /\ stdout (trace (start s)) = []
  /\ ~ In (Did server_close) (trace (start s)).
Proof.
  intros [-> | ->]; all_runs; intros H; find_event H; injection H as ->;
    (split; [first [ now exists [] | eexists [_]; reflexivity ]|]);
    repeat split; cbn; intuition discriminate.
Qed.

(** X2.  The [with] block gives the socket back on every way out: in
    every run in which the bind succeeded and that comes to an end,
    [server_close] happens exactly once and is the last event. *)
Theorem server_socket_is_closed_on_every_exit (s : S) (v : value) :
  In (Called bind_call (Returns v)) (trace (start s)) ->
  result (start s) <> Blocked ->
  exists pre,
    trace (start s) = pre ++ [Did server_close]
    /\ ~ In (Did server_close) pre.
Proof.
  all_runs; intros H Hend; find_event H; try (now exfalso; apply Hend);
    match goal with
    | |- exists pre, ?t = _ /\ _ => exists (removelast t)
    end; (split; [reflexivity | cbn; intuition discriminate]).
Qed.

(** X3.  While [serve_forever] has not come back the process keeps
    running with the socket open, and the console shows the status
    lines followed by exactly one of the two browser messages. *)
Theorem serving_keeps_the_socket_open (s : S) :
  In (Called serve_forever Blocks) (trace (start s)) ->
  snd (script os_path_abspath os_path_dirname env amb s) = Running
  /\ ~ In (Did server_close) (trace (start s))
  /\ exists m, (m = opening_message \/ m = fallback_message)
               /\ stdout (trace (start s)) = status_lines ++ [m].
Proof.
  all_runs; intros H; find_event H;
    (split; [reflexivity|]); (split; [cbn; intuition discriminate|]);
    first [ exists opening_message; split; [now left | reflexivity]
          | exists fallback_message; split; [now right | reflexivity] ].
Qed.

(** X4.  Only [KeyboardInterrupt] is handled around the serve loop: any
    other exception raised by [serve_forever] is unhandled; the stop
    message is not printed, and the socket is closed before the
    exception leaves [main]. *)
Theorem serve_loop_exceptions_propagate (s : S) (e : exn) :
  e <> KeyboardInterrupt ->
  In (Called serve_forever (Raises e)) (trace (start s)) ->
  (exists pre,
     trace (start s)
     = pre ++ [Called serve_forever (Raises e); Did server_close])
  /\ result (start s) = Uncaught e
  /\ ~ In stop_message (stdout (trace (start s))).
Proof.
  intros Hne. all_runs; intros H; find_event H; injection H as <-;
    try (now exfalso; apply Hne);
    (split; [ match goal with
              | |- exists pre, ?t = _ =>
                  exists (removelast (removelast t)); reflexivity
              end |]);
    (split; [reflexivity | cbv; intuition discriminate]).
Qed.

(** X5.  The stop message is on the console exactly when the serve
    loop was left by [KeyboardInterrupt]. *)
Theorem stop_message_iff_interrupted (s : S) :
  In stop_message (stdout (trace (start s)))
  <-> In (Called serve_forever (Raises KeyboardInterrupt)) (trace (start s)).
Proof.
  all_runs; split; intros H; cbv in H;
    first [ cbv; tauto | exfalso; intuition discriminate ].
Qed.

(** X6.  What [webbrowser.open] returns is never looked at: whenever
    the call returns, with [False] as with [True], the opening message
    is printed, the fallback message is not, and [serve_forever] is
    called next. *)
Theorem browser_launch_result_is_not_checked (s : S) (v : value) :
  In (Called (webbrowser_open browser_url) (Returns v)) (trace (start s)) ->
  (exists v0 v1 r rest,
     trace (start s)
     = startup_prefix dir v0 v1
       ++ [ Called (webbrowser_open browser_url) (Returns v);
            Did (print opening_message);
            Called serve_forever r ]
       ++ rest)
  /\ In opening_message (stdout (trace (start s)))
  /\ ~ In fallback_message (stdout (trace (start s))).
Proof.
  intros H. split; [exact (browser_return_value_is_ignored _ _ env amb s v H)|].
  revert H. all_runs; intros H; find_event H; injection H as <-;
    cbv; intuition discriminate.
Qed.

(** X7.  The console of a run is one of: nothing; the status lines;
    the status lines and one browser message; those and the stop
    message.  Nothing else is ever printed. *)
Theorem console_output_shapes (s : S) :
  stdout (trace (start s)) = []
  \/ stdout (trace (start s)) = status_lines
  \/ exists m, (m = opening_message \/ m = fallback_message)
               /\ (stdout (trace (start s)) = status_lines ++ [m]
                   \/ stdout (trace (start s))
                      = status_lines ++ [m; stop_message]).
Proof.
  all_runs;
    first [ left; reflexivity
          | right; left; reflexivity
          | right; right; exists opening_message;
            split; [now left|]; first [left; reflexivity | right; reflexivity]
          | right; right; exists fallback_message;
            split; [now right|]; first [left; reflexivity | right; reflexivity] ].
Qed.

(** X8.  A serve loop that returns ends the script quietly: no stop
    message, the socket is closed last, exit status 0. *)
Theorem serve_loop_return_exits_0 (s : S) (v : value) :
  In (Called serve_forever (Returns v)) (trace (start s)) ->
  (exists pre,
     trace (start s)
     = pre ++ [Called serve_forever (Returns v); Did server_close])
  /\ ~ In stop_message (stdout (trace (start s)))
  /\ snd (script os_path_abspath os_path_dirname env amb s) = Exit 0.
Proof.
  all_runs; intros H; find_event H; injection H as <-;
    (split; [ match goal with
              | |- exists pre, ?t = _ =>
                  exists (removelast (removelast t)); reflexivity
              end |]);
    (split; [cbv; intuition discriminate | reflexivity]).
Qed.

End StartupFailures.

Section HandlerFailures.
Import Py CustomHTTPRequestHandler.
Context {S : Type} (env : library S).
Variables (amb : process) (self : handler).

(** X9.  [end_headers] handles no exception: the first library call
    that raises ends it with that exception; when that call is a
    [send_header], the headers after it are not sent and the library's
    [end_headers] is not called. *)
Theorem end_headers_stops_at_first_failure (s : S) (c : call) (e : exn) :
  In (Called c (Raises e)) (trace (run env (end_headers amb self) s)) ->
  (exists pre,
     trace (run env (end_headers amb self) s) = pre ++ [Called c (Raises e)])
  /\ result (run env (end_headers amb self) s) = Uncaught e
  /\ (c <> super_end_headers ->
      ~ In super_end_headers
           (calls (trace (run env (end_headers amb self) s)))).
Proof.
  unfold end_headers. simpl. repeat next_reply; intros H; find_event H;
    injection H as <- <-;
    (split; [ match goal with
              | |- exists pre, ?t = _ => exists (removelast t); reflexivity
              end |]);
    (split; [reflexivity|]); intros Hc; cbn; intuition discriminate.
Qed.

(** X10.  A path of fewer than three characters, the empty path
    included, cannot end with [.js]: [guess_type] asks the library. *)
Theorem guess_type_short_path (path : string) (s : S) :
  String.length path < 3 ->
  run env (guess_type amb self path) s
  = Execution
      [Called (super_guess_type path) (fst (env s (super_guess_type path)))]
      (reply_outcome (fst (env s (super_guess_type path))))
      (snd (env s (super_guess_type path))).
Proof.
  intros Hlen.
  assert (Hno : ~ ends_with path ".js").
  { intros [stem ->]. rewrite length_app in Hlen. simpl in Hlen. lia. }
  apply endswith_false_iff in Hno. unfold guess_type. rewrite Hno.
  apply run_lib.
Qed.

End HandlerFailures.

(** ** The further theorems at concrete runs *)

(** X1: the script's directory is gone ([ENOENT]); Ctrl-C while
    binding. *)
Lemma startup_exceptions_are_unhandled_witness :
  (In (Py.Called (Py.os_chdir "/srv/glyphtile/examples")
                 (Py.Raises (Py.OSError 2)))
      (Py.trace (example_run chdir_fails))
   /\ Py.result (example_run chdir_fails) = Py.Uncaught (Py.OSError 2)
   /\ Py.stdout (Py.trace (example_run chdir_fails)) = [])
  /\
  (In (Py.Called bind_call (Py.Raises Py.KeyboardInterrupt))
      (Py.trace (example_run interrupted_while_binding))
   /\ Py.result (example_run interrupted_while_binding)
      = Py.Uncaught Py.KeyboardInterrupt
   /\ ~ In (Py.Did Py.server_close)
           (Py.trace (example_run interrupted_while_binding))).
Proof.
  assert (H1 : In (Py.Called (Py.os_chdir "/srv/glyphtile/examples")
                             (Py.Raises (Py.OSError 2)))
                  (Py.trace (example_run chdir_fails))) by (cbv; tauto).
  assert (H2 : In (Py.Called bind_call (Py.Raises Py.KeyboardInterrupt))
                  (Py.trace (example_run interrupted_while_binding)))
    by (cbv; tauto).
  split; (split; [assumption|]).
  - destruct (startup_exceptions_are_unhandled abspath_of_absolute
                posixpath.dirname scripted example_process chdir_fails
                _ _ (or_introl eq_refl) H1) as (_ & Hr & Ho & _).
    exact (conj Hr Ho).
  - destruct (startup_exceptions_are_unhandled abspath_of_absolute
                posixpath.dirname scripted example_process
                interrupted_while_binding _ _ (or_intror eq_refl) H2)
      as (_ & Hr & _ & Hc).
    exact (conj Hr Hc).
Defined.

(** X2: Ctrl-C while serving. *)
Lemma server_socket_is_closed_on_every_exit_witness :
  In (Py.Called bind_call (Py.Returns Py.VServer))
     (Py.trace (example_run interrupted))
  /\ Py.result (example_run interrupted) <> Py.Blocked
  /\ exists pre,
       Py.trace (example_run interrupted) = pre ++ [Py.Did Py.server_close]
       /\ ~ In (Py.Did Py.server_close) pre.
Proof.
  assert (H : In (Py.Called bind_call (Py.Returns Py.VServer))
                 (Py.trace (example_run interrupted))) by (cbv; tauto).
  assert (Hend : Py.result (example_run interrupted) <> Py.Blocked)
    by discriminate.
  split; [exact H|]. split; [exact Hend|].
  exact (server_socket_is_closed_on_every_exit abspath_of_absolute
           posixpath.dirname scripted example_process interrupted _ H Hend).
Defined.

(** X3: a server that is serving. *)
Lemma serving_keeps_the_socket_open_witness :
  In (Py.Called Py.serve_forever Py.Blocks) (Py.trace (example_run serving))
  /\ snd (script abspath_of_absolute posixpath.dirname scripted
                 example_process serving) = Py.Running
  /\ ~ In (Py.Did Py.server_close) (Py.trace (example_run serving))
  /\ exists m, (m = opening_message \/ m = fallback_message)
               /\ Py.stdout (Py.trace (example_run serving))
                  = status_lines ++ [m].
Proof.
  assert (H : In (Py.Called Py.serve_forever Py.Blocks)
                 (Py.trace (example_run serving))) by (cbv; tauto).
  split; [exact H|].
  exact (serving_keeps_the_socket_open abspath_of_absolute posixpath.dirname
           scripted example_process serving H).
Defined.

(** X4: the listening socket breaks ([EBADF]). *)
Lemma serve_loop_exceptions_propagate_witness :
  Py.OSError 9 <> Py.KeyboardInterrupt
  /\ In (Py.Called Py.serve_forever (Py.Raises (Py.OSError 9)))
        (Py.trace (example_run serve_loop_crashes))
  /\ Py.result (example_run serve_loop_crashes) = Py.Uncaught (Py.OSError 9)
  /\ ~ In stop_message (Py.stdout (Py.trace (example_run serve_loop_crashes))).
Proof.
  assert (Hne : Py.OSError 9 <> Py.KeyboardInterrupt) by discriminate.
  assert (H : In (Py.Called Py.serve_forever (Py.Raises (Py.OSError 9)))
                 (Py.trace (example_run serve_loop_crashes))) by (cbv; tauto).
  split; [exact Hne|]. split; [exact H|].
  exact (proj2 (serve_loop_exceptions_propagate abspath_of_absolute
                  posixpath.dirname scripted example_process
                  serve_loop_crashes _ Hne H)).
Defined.

(** X6: no browser could be started, and [webbrowser.open] says so by
    returning [False]. *)
Lemma browser_launch_result_is_not_checked_witness :
  In (Py.Called (Py.webbrowser_open browser_url)
                (Py.Returns (Py.VBool false)))
     (Py.trace (example_run browser_reports_failure))
  /\ In opening_message
        (Py.stdout (Py.trace (example_run browser_reports_failure)))
  /\ ~ In fallback_message
          (Py.stdout (Py.trace (example_run browser_reports_failure))).
Proof.
  assert (H : In (Py.Called (Py.webbrowser_open browser_url)
                            (Py.Returns (Py.VBool false)))
                 (Py.trace (example_run browser_reports_failure)))
    by (cbv; tauto).
  split; [exact H|].
  exact (proj2 (browser_launch_result_is_not_checked abspath_of_absolute
                  posixpath.dirname scripted example_process
                  browser_reports_failure _ H)).
Defined.

(** X8: the serve loop is shut down from elsewhere. *)
Lemma serve_loop_return_exits_0_witness :
  In (Py.Called Py.serve_forever (Py.Returns Py.VNone))
     (Py.trace (example_run serve_loop_returns))
  /\ ~ In stop_message (Py.stdout (Py.trace (example_run serve_loop_returns)))
  /\ snd (script abspath_of_absolute posixpath.dirname scripted
                 example_process serve_loop_returns) = Py.Exit 0.
Proof.
  assert (H : In (Py.Called Py.serve_forever (Py.Returns Py.VNone))
                 (Py.trace (example_run serve_loop_returns))) by (cbv; tauto).
  split; [exact H|].
  exact (proj2 (serve_loop_return_exits_0 abspath_of_absolute
                  posixpath.dirname scripted example_process
                  serve_loop_returns _ H)).
Defined.

(** X9: the second header cannot be encoded. *)
Lemma end_headers_stops_at_first_failure_witness :
  In (Py.Called (Py.send_header "Access-Control-Allow-Methods"
                                "GET, POST, OPTIONS")
                (Py.Raises (Py.Exception "UnicodeEncodeError")))
     (Py.trace (Py.run scripted
                  (CustomHTTPRequestHandler.end_headers example_process
                                                        example_handler)
                  second_header_fails))
  /\ Py.result (Py.run scripted
                  (CustomHTTPRequestHandler.end_headers example_process
                                                        example_handler)
                  second_header_fails)
     = Py.Uncaught (Py.Exception "UnicodeEncodeError").
Proof.
  assert (H : In (Py.Called (Py.send_header "Access-Control-Allow-Methods"
                                            "GET, POST, OPTIONS")
                            (Py.Raises (Py.Exception "UnicodeEncodeError")))
                 (Py.trace (Py.run scripted
                              (CustomHTTPRequestHandler.end_headers
                                 example_process example_handler)
                              second_header_fails))) by (cbv; tauto).
  split; [exact H|].
  exact (proj1 (proj2 (end_headers_stops_at_first_failure scripted
                         example_process example_handler second_header_fails
                         _ _ H))).
Defined.

(** X10: the empty path. *)
Lemma guess_type_short_path_witness :
  String.length "" < 3
  /\ Py.run scripted
       (CustomHTTPRequestHandler.guess_type example_process example_handler "")
       [Py.Returns (Py.VStr "application/octet-stream")]
     = Py.Execution
         [Py.Called (Py.super_guess_type "")
                    (Py.Returns (Py.VStr "application/octet-stream"))]
         (Py.Done (Py.VStr "application/octet-stream")) [].
Proof.
  assert (H : String.length "" < 3) by (cbv; repeat constructor).
  split; [exact H|].
  exact (guess_type_short_path scripted example_process example_handler ""
           [Py.Returns (Py.VStr "application/octet-stream")] H).
Defined.
